(** * redux-promise-middleware: a shallow embedding of [src/index.ts]

    The middleware inspects the payload of a dispatched action, tries to get
    a promise out of it and, depending on what it finds, either forwards the
    action to [next] or emits the pending / fulfilled / rejected actions.

    JavaScript values are a small inductive type, objects are ordered
    property lists, the calls the code makes are recorded in a trace of
    events and an exception is an abrupt completion.

    What the embedding takes for granted:
    - properties are plain data (no getters), numbers are integers;
    - a function found in a payload is called without arguments and either
      returns a fixed value or throws a fixed value;
    - a thenable's [then] follows Promises/A+: it returns at once and runs
      one handler after the current call has returned;
    - a [then] written by hand that runs its handlers during the call, or
      more than once, is not among the values;
    - printing a value never runs code of the value (an own [toString]) and
      so never throws; on strings it is exact;
    - [next] and [dispatch] are functions of the action they are given. *)

From Stdlib Require Import String Ascii List ZArith Bool Lia.
From Stdlib Require Import DecimalString.
Import ListNotations.
Open Scope string_scope.
Open Scope list_scope.

Set Implicit Arguments.
Set Warnings "-register-all".

(** ** Values *)

(** How a promise ends: the state a [then] handler will observe. *)
Inductive settlement (V : Type) : Type :=
| Fulfils (v : V)
| Rejects (e : V)
| Pends.
Arguments Pends {V}.

(** What a function value does when it is called.  [Returns] and [Throws]
    are the user functions found in a payload (called with no argument);
    [ThenOf s] is the [then] member of a thenable whose state is [s]. *)
Inductive behaviour (V : Type) : Type :=
| Returns (v : V)
| Throws (e : V)
| ThenOf (s : settlement V).

(** [VNum] holds the integer-valued numbers; [VFun src body props] is a
    function object with its source text, what a call does and its own
    properties; [VPromise s] is a native promise. *)
Inductive value : Type :=
| VUndef
| VNull
| VBool (b : bool)
| VNum (n : Z)
| VStr (s : string)
| VObj (props : list (string * value))
| VFun (src : string) (body : behaviour value) (props : list (string * value))
| VPromise (s : settlement value).

Definition object : Type := list (string * value).

(** The results of the [typeof] operator. *)
Inductive jstype : Type :=
| TUndefined | TObject | TBoolean | TNumber | TString | TFunction.

Definition typeof (v : value) : jstype :=
  match v with
  | VUndef => TUndefined
  | VNull => TObject
  | VBool _ => TBoolean
  | VNum _ => TNumber
  | VStr _ => TString
  | VObj _ => TObject
  | VFun _ _ _ => TFunction
  | VPromise _ => TObject
  end.

Definition jstype_eqb (a b : jstype) : bool :=
  match a, b with
  | TUndefined, TUndefined | TObject, TObject | TBoolean, TBoolean
  | TNumber, TNumber | TString, TString | TFunction, TFunction => true
  | _, _ => false
  end.

Definition is_function (v : value) : bool := jstype_eqb (typeof v) TFunction.
Definition is_object (v : value) : bool := jstype_eqb (typeof v) TObject.

(** ToBoolean. *)
Definition truthy (v : value) : bool :=
  match v with
  | VUndef | VNull => false
  | VBool b => b
  | VNum n => negb (Z.eqb n 0)
  | VStr s => negb (String.eqb s "")
  | VObj _ | VFun _ _ _ | VPromise _ => true
  end.

(** ToString.  A plain object prints through [Object.prototype.toString]
    (an own [toString] member is not looked at), a function as its source
    text. *)
Definition ToString (v : value) : string :=
  match v with
  | VUndef => "undefined"
  | VNull => "null"
  | VBool true => "true"
  | VBool false => "false"
  | VNum n => NilZero.string_of_int (Z.to_int n)
  | VStr s => s
  | VObj _ => "[object Object]"
  | VFun src _ _ => src
  | VPromise _ => "[object Promise]"
  end.

(** ** Objects as ordered property lists *)

Fixpoint lookup (k : string) (o : object) : option value :=
  match o with
  | [] => None
  | (k', v) :: o' => if String.eqb k k' then Some v else lookup k o'
  end.

(** [o[k] = v]: an existing key keeps its place, a new key goes last. *)
Fixpoint set_prop (k : string) (v : value) (o : object) : object :=
  match o with
  | [] => [(k, v)]
  | (k', v') :: o' =>
      if String.eqb k k' then (k, v) :: o' else (k', v') :: set_prop k v o'
  end.

(** [{ ...o, ...extra }]. *)
Definition spread (o extra : object) : object :=
  fold_left (fun acc kv => set_prop (fst kv) (snd kv) acc) extra o.

(** The rest of an object pattern: the properties not named in [ks]. *)
Definition rest (ks : list string) (o : object) : object :=
  filter (fun kv => negb (existsb (String.eqb (fst kv)) ks)) o.

Definition get (k : string) (o : object) : value :=
  match lookup k o with
  | Some v => v
  | None => VUndef
  end.

Definition has_field (k : string) (o : object) : bool :=
  match lookup k o with
  | Some _ => true
  | None => false
  end.

(** The [then] member every native promise inherits. *)
Definition builtin_then (s : settlement value) : value :=
  VFun "function then() { [native code] }" (ThenOf s) [].

(** [v.k] for a [v] that is neither [null] nor [undefined].  Of the members
    the prototypes provide only a promise's [then] is one the code reads. *)
Definition member (v : value) (k : string) : value :=
  match v with
  | VObj props => get k props
  | VFun _ _ props => get k props
  | VPromise s => if String.eqb k "then" then builtin_then s else VUndef
  | _ => VUndef
  end.

(** ** Completions and traces *)

Inductive completion (A : Type) : Type :=
| Normal (a : A)
| Abrupt (e : value).
Arguments Abrupt {A} e.

(** What the code does to the outside world, in order: it calls the
    function it found as [payload] or as [payload.promise], writes to the
    console, calls [next] or calls [dispatch]. *)
Inductive event : Type :=
| EInvoke (f : value)
| ELog (args : list value)
| ENext (action : value)
| EDispatch (action : value).

Definition M (A : Type) : Type := (list event * completion A)%type.

Definition ret {A} (a : A) : M A := ([], Normal a).
Definition throw {A} (e : value) : M A := ([], Abrupt e).
Definition tell (evs : list event) : M unit := (evs, Normal tt).
Definition lift {A} (c : completion A) : M A := ([], c).

Definition bind {A B} (m : M A) (k : A -> M B) : M B :=
  match m with
  | (evs, Normal a) => let '(evs', c) := k a in (evs ++ evs', c)
  | (evs, Abrupt e) => (evs, Abrupt e)
  end.

Notation "x <- m ;; k" := (bind m (fun x => k))
  (at level 61, m at next level, right associativity).
Notation "m ;;; k" := (bind m (fun _ => k))
  (at level 61, right associativity).

(** The engine's [TypeError]; the wording of the message is the engine's
    business and no statement below depends on it. *)
Definition TypeError (msg : string) : value :=
  VObj [("name", VStr "TypeError"); ("message", VStr msg)].

(** [v.k] where [v] may be [null] or [undefined]. *)
Definition get_member (v : value) (k : string) : completion value :=
  match v with
  | VUndef | VNull => Abrupt (TypeError ("Cannot read property " ++ k))
  | _ => Normal (member v k)
  end.

(** A call of [f].  The functions of the model are constant: what a call
    does is fixed by the function and not by its arguments.  A [then] that
    is handed no handler returns a promise that settles the way its own
    promise settled. *)
Definition call (f : value) : completion value :=
  match f with
  | VFun _ (Returns v) _ => Normal v
  | VFun _ (Throws e) _ => Abrupt e
  | VFun _ (ThenOf s) _ => Normal (VPromise s)
  | _ => Abrupt (TypeError "is not a function")
  end.

(** A call of a function taken from the payload, as the trace sees it. *)
Definition invoke (f : value) : M value :=
  tell [EInvoke f] ;;; lift (call f).

(** ** The source, function by function *)

Definition DefaultTypes : value :=
  VObj [("pending", VStr "PENDING");
        ("fulfilled", VStr "FULFILLED");
        ("rejected", VStr "REJECTED")].

Definition is_null (v : value) : bool :=
  match v with
  | VNull => true
  | _ => false
  end.

(** [isPromise]: not [null], an object, with a callable [then]. *)
Definition isPromise (value : value) : bool :=
  negb (is_null value) && is_object value && is_function (member value "then").

Record destructured : Type := { promise : value; data : value }.

(** [destructureAction].  Inside the object branch the two tests on
    [payload.promise] are two separate [if]s, the second one overwriting
    what the first one stored. *)
Definition destructureAction (action : object) : M destructured :=
  let payload := get "payload" action in
  if isPromise payload then
    ret {| promise := payload; data := VNull |}
  else if is_function payload then
    p <- invoke payload ;;
    ret {| promise := p; data := VNull |}
  else if is_object payload then
    d <- lift (get_member payload "data") ;;
    p <- (if is_function (member payload "promise")
          then invoke (member payload "promise")
          else ret VNull) ;;
    let p := if isPromise (member payload "promise")
             then member payload "promise" else p in
    ret {| promise := p; data := d |}
  else
    ret {| promise := VNull; data := VNull |}.

(** [Array.prototype.join]: [undefined] and [null] elements print as the
    empty string and an [undefined] separator is a comma. *)
Definition join_elem (v : value) : string :=
  match v with
  | VUndef | VNull => ""
  | _ => ToString v
  end.

Definition array_join (xs : list value) (sep : value) : string :=
  String.concat (match sep with VUndef => "," | _ => ToString sep end)
                (map join_elem xs).

(** [createAction].  Its one argument is an object; [asyncType] and
    [asyncTypeDelimiter] are taken out of it and the rest is [action]. *)
Definition createAction (args : object) : M object :=
  let asyncType := get "asyncType" args in
  let asyncTypeDelimiter := get "asyncTypeDelimiter" args in
  let action := rest ["asyncType"; "asyncTypeDelimiter"] args in
  tell [ELog [VStr "payload"; get "payload" action]] ;;;
  ret (spread
         (spread
            (spread
               [("type",
                 VStr (array_join [get "type" action; asyncType]
                                  asyncTypeDelimiter))]
               (if is_null (get "payload" action)
                   || jstype_eqb (typeof (get "payload" action)) TUndefined
                then [] else [("payload", get "payload" action)]))
            (match get "meta" action with
             | VUndef => []
             | meta => [("meta", meta)]
             end))
         (if truthy (get "error" action)
          then [("error", get "error" action)] else [])).

(** The two capabilities the middleware is given: [dispatch] re-enters the
    whole pipeline, [next] forwards to the next stage. *)
Record MiddlewareAPI : Type := { dispatch : value -> completion value }.

Definition forward (next : value -> completion value) (a : value) : M value :=
  tell [ENext a] ;;; lift (next a).

Definition redispatch (api : MiddlewareAPI) (a : value) : M value :=
  tell [EDispatch a] ;;; lift (dispatch api a).

(** One dispatch: what happens before the call returns ([now]) and what
    the handlers registered on the promise do once it has settled
    ([later]). *)
Record outcome : Type := { now : M value; later : list event }.

Definition sync (m : M value) : outcome := {| now := m; later := [] |}.

Definition and_then {A} (m : M A) (k : A -> outcome) : outcome :=
  match m with
  | (evs, Normal a) =>
      {| now := (evs ++ fst (now (k a)), snd (now (k a)));
         later := later (k a) |}
  | (evs, Abrupt e) => sync (evs, Abrupt e)
  end.

Notation "x <-- m ;; k" := (and_then m (fun x => k))
  (at level 61, m at next level, right associativity).

(** The promise [then] returns is settled by what the handler does.  The
    handlers below return a plain record or throw, so the adoption of a
    returned thenable never comes into play. *)
Definition settle (c : completion value) : settlement value :=
  match c with
  | Normal r => Fulfils r
  | Abrupt e => Rejects e
  end.

(** [promise.then(onFulfilled, onRejected)].  A thenable's [then] runs one
    of the handlers after the current call has returned; any other member
    is just called. *)
Definition invoke_then (promise : value)
    (onFulfilled onRejected : value -> M value) : outcome :=
  match member promise "then" with
  | VFun _ (ThenOf (Fulfils v)) _ =>
      {| now := ret (VPromise (settle (snd (onFulfilled v))));
         later := fst (onFulfilled v) |}
  | VFun _ (ThenOf (Rejects e)) _ =>
      {| now := ret (VPromise (settle (snd (onRejected e))));
         later := fst (onRejected e) |}
  | VFun _ (ThenOf Pends) _ => sync (ret (VPromise Pends))
  | f => sync (lift (call f))
  end.

Definition default_config : object :=
  [("types", DefaultTypes); ("typeDelimiter", VStr "_")].

(** STEP 3 of the source: build the pending action and hand it to [next]. *)
Definition emitPending (types typeDelimiter : value)
    (next : value -> completion value) (action : object) (d : destructured)
  : M value :=
  pending <- lift (get_member types "pending") ;;
  a <- createAction [("type", get "type" action);
                     ("payload", data d);
                     ("meta", get "meta" action);
                     ("error", VBool false);
                     ("asyncType", pending);
                     ("asyncTypeDelimiter", typeDelimiter)] ;;
  forward next (VObj a).

(** STEP 4 of the source: the two handlers given to [then]. *)
Definition onFulfilled (types typeDelimiter : value) (api : MiddlewareAPI)
    (action : object) : value -> M value := fun value =>
  fulfilled <- lift (get_member types "fulfilled") ;;
  fulfilledAction <- createAction [("type", get "type" action);
                                   ("payload", value);
                                   ("meta", get "meta" action);
                                   ("error", VBool false);
                                   ("asyncType", fulfilled);
                                   ("asyncTypeDelimiter", typeDelimiter)] ;;
  redispatch api (VObj fulfilledAction) ;;;
  ret (VObj [("value", value); ("action", VObj fulfilledAction)]).

Definition onRejected (types typeDelimiter : value) (api : MiddlewareAPI)
    (action : object) : value -> M value := fun error =>
  rejected <- lift (get_member types "rejected") ;;
  rejectedAction <- createAction [("type", get "type" action);
                                  ("payload", error);
                                  ("meta", get "meta" action);
                                  ("error", VBool true);
                                  ("asyncType", rejected);
                                  ("asyncTypeDelimiter", typeDelimiter)] ;;
  redispatch api (VObj rejectedAction) ;;;
  throw error.

(** The function [createPromise] returns, [({ dispatch }) => (next) =>
    (action) => ...], with the two variables it captures, [types] and
    [typeDelimiter], as its first arguments. *)
Definition promiseMiddleware (types typeDelimiter : value)
    (api : MiddlewareAPI) (next : value -> completion value)
    (action : object) : outcome :=
  d <-- destructureAction action ;;
  if isPromise (promise d) then
    sync (forward next (VObj (spread action [("payload", promise d)])))
  else if negb (truthy (promise d)) then
    sync (forward next (VObj action))
  else
    _ <-- emitPending types typeDelimiter next action d ;;
    invoke_then (promise d)
      (onFulfilled types typeDelimiter api action)
      (onRejected types typeDelimiter api action).

(** [createPromise(config)].  [None] is the call without an argument, for
    which the default parameter stands in. *)
Definition createPromise (config : option object)
  : MiddlewareAPI -> (value -> completion value) -> object -> outcome :=
  let config := match config with Some c => c | None => default_config end in
  let types := get "types" config in
  let typeDelimiter := get "typeDelimiter" config in
  promiseMiddleware types typeDelimiter.

(** The text of the development-mode notice, escapes resolved: [\ ] is a
    space, a backslash before a line break joins the two lines, [\\] is one
    backslash and [\n] a line break. *)
Definition nl : string := String (ascii_of_nat 10) EmptyString.
Definition dquote : string := String (ascii_of_nat 34) EmptyString.

Definition upgrade_notice : string :=
  String.concat "" [
    "[REDUX PROMISE MIDDLEWARE]: As of version 6.0.0, the middleware library "; nl;
    "    \supports both preconfigured and custom configured middleware. To use a custom "; nl;
    "    \configuration, use the "; dquote; "createPromise"; dquote;
    " export and call this function with your "; nl;
    "    \configuration property. To use a preconfiguration, use the default export.";
    "    \For more help, check the upgrading guide: "; nl;
    "    \https://docs.psb.codes/redux-promise-middleware/upgrade-guides/v6"; nl;
    "    "; nl; nl;
    "    \For custom configuration:";
    "    \import { createPromise } from 'redux-promise-middleware';";
    "    \const promise = createPromise({ types: { fulfilled: 'success' } });";
    "    \applyMiddleware(promise);";
    "    "; nl; nl;
    "    \For preconfiguration:";
    "    \import promise from 'redux-promise-middleware';";
    "    \applyMiddleware(promise);";
    "    "].

Definition is_development (process : value) : bool :=
  truthy process
  && truthy (member process "env")
  && match member (member process "env") "NODE_ENV" with
     | VStr s => String.eqb s "development"
     | _ => false
     end.

(** The default export.  [process] is the global of that name, which the
    runtime (or the bundler) declares; [None] is the [null] the function
    returns when it is not given a store. *)
Definition middleware (process : value) (arg : object)
  : M (option ((value -> completion value) -> object -> outcome)) :=
  let dispatch := get "dispatch" arg in
  if is_function dispatch then
    ret (Some (createPromise None {| dispatch := fun _ => call dispatch |}))
  else
    (if is_development process
     then tell [ELog [VStr upgrade_notice]] else ret tt) ;;;
    ret None.

(** ** Reading a trace *)

Fixpoint forwarded (evs : list event) : list value :=
  match evs with
  | [] => []
  | ENext a :: evs' => a :: forwarded evs'
  | _ :: evs' => forwarded evs'
  end.

Fixpoint dispatched (evs : list event) : list value :=
  match evs with
  | [] => []
  | EDispatch a :: evs' => a :: dispatched evs'
  | _ :: evs' => dispatched evs'
  end.

(** ** Sample inputs *)

Definition resolved (v : value) : value := VPromise (Fulfils v).
Definition rejected_with (e : value) : value := VPromise (Rejects e).
Definition Error (msg : string) : value :=
  VObj [("name", VStr "Error"); ("message", VStr msg)].

(** A store whose [dispatch] and [next] hand back the action they get. *)
Definition echo (a : value) : completion value := Normal a.
Definition echo_api : MiddlewareAPI := {| dispatch := echo |}.

(** A function object that also has a [then] of its own. *)
Definition callable_thenable (src : string) (body : behaviour value)
    (s : settlement value) : value :=
  VFun src body [("then", builtin_then s)].

Definition fetch (payload : value) : object :=
  [("type", VStr "FETCH"); ("payload", payload)].

(** The argument the middleware builds for the pending action of
    [{ type: "FETCH", payload: { data: "optimistic", ... } }]. *)
Definition pending_args : object :=
  [("type", VStr "FETCH"); ("payload", VStr "optimistic");
   ("meta", VUndef); ("error", VBool false);
   ("asyncType", VStr "PENDING"); ("asyncTypeDelimiter", VStr "_")].

(** A payload function that returns a function carrying a [then]. *)
Definition deferred (s : settlement value) : value :=
  VFun "() => thenable"
       (Returns (callable_thenable "thenable" (Returns VUndef) s)) [].

(** A payload whose [promise] is a function carrying a [then]. *)
Definition thenable_fn : value :=
  callable_thenable "() => 7" (Returns (VNum 7)) (Fulfils (VNum 1)).
Definition thenable_fn_payload : object :=
  [("promise", thenable_fn); ("data", VStr "optimistic")].

(** A configuration that names the tokens and no delimiter. *)
Definition types_only : object := [("types", DefaultTypes)].

(** A [process] global in development mode. *)
Definition dev_process : value :=
  VObj [("env", VObj [("NODE_ENV", VStr "development")])].

(** ** The built action, field by field *)

Definition nullish (v : value) : bool :=
  is_null v || jstype_eqb (typeof v) TUndefined.

(** The object [createAction] returns, field by field. *)
Definition built (ty asyncType delimiter payload meta error : value) : object :=
  ("type", VStr (array_join [ty; asyncType] delimiter))
    :: (if nullish payload then [] else [("payload", payload)])
    ++ (match meta with VUndef => [] | _ => [("meta", meta)] end)
    ++ (if truthy error then [("error", error)] else []).

(** The pending action: the base type with the pending token, the
    optimistic data as payload, the meta of the action, no error field.  It
    goes to [next] before [then] is called. *)
Definition pending_action (types typeDelimiter : value) (action : object)
    (d : destructured) : object :=
  built (get "type" action) (member types "pending") typeDelimiter
        (data d) (get "meta" action) (VBool false).

Definition fulfilled_action (types typeDelimiter : value) (action : object)
    (v : value) : object :=
  built (get "type" action) (member types "fulfilled") typeDelimiter
        v (get "meta" action) (VBool false).

Definition rejected_action (types typeDelimiter : value) (action : object)
    (e : value) : object :=
  built (get "type" action) (member types "rejected") typeDelimiter
        e (get "meta" action) (VBool true).

(** What STEP 3 leaves in the trace. *)
Definition pending_trace (types typeDelimiter : value) (action : object)
    (d : destructured) : list event :=
  [ELog [VStr "payload"; data d];
   ENext (VObj (pending_action types typeDelimiter action d))].

(** ** More sample inputs *)

(** Payload functions: one that returns nothing, one that returns a native
    promise, one that returns a number and one that throws. *)
Definition returns_nothing : value := VFun "() => {}" (Returns VUndef) [].
Definition returns_promise : value :=
  VFun "() => Promise.resolve(1)" (Returns (resolved (VNum 1))) [].
Definition returns_number : value := VFun "() => 3" (Returns (VNum 3)) [].
Definition throws_error : value :=
  VFun "() => { throw new Error('x') }" (Throws (Error "x")) [].

(** An ordinary object payload, with nothing under [promise]. *)
Definition plain_payload : object := [("id", VNum 1); ("data", VStr "draft")].

Definition failing_next (a : value) : completion value :=
  Abrupt (Error "next").

(** A configuration with its own tokens and delimiter. *)
Definition custom_types : object :=
  [("pending", VStr "START"); ("fulfilled", VStr "OK");
   ("rejected", VStr "FAIL")].
Definition custom_config : object :=
  [("types", VObj custom_types); ("typeDelimiter", VStr "/")].

(** An argument of [createAction] with properties it does not know. *)
Definition noisy_args : object :=
  [("type", VStr "FETCH"); ("asyncType", VStr "PENDING");
   ("asyncTypeDelimiter", VStr "_"); ("payload", VNum 0);
   ("meta", VNull); ("error", VNum 1); ("extra", VStr "dropped")].

(** The tokens of [DefaultTypes], and what the destructurer finds in
    [fetch (deferred s)]. *)
Definition default_tokens : object :=
  [("pending", VStr "PENDING"); ("fulfilled", VStr "FULFILLED");
   ("rejected", VStr "REJECTED")].
Definition found_deferred (s : settlement value) : destructured :=
  {| promise := callable_thenable "thenable" (Returns VUndef) s;
     data := VNull |}.

(** * Properties *)

(** ** The detector *)

Lemma jstype_eqb_eq (a b : jstype) : jstype_eqb a b = true <-> a = b.
Proof.
  destruct a, b; simpl; split; intro H; try reflexivity; discriminate H.
Qed.

Lemma is_function_typeof (v : value) :
  is_function v = true <-> typeof v = TFunction.
Proof. apply jstype_eqb_eq. Qed.

(** The detector only accepts objects, so nothing it accepts is callable. *)
Lemma isPromise_not_function (v : value) :
  isPromise v = true -> is_function v = false.
Proof. destruct v; simpl; intro H; try reflexivity; discriminate H. Qed.

Lemma is_function_not_promise (v : value) :
  is_function v = true -> isPromise v = false.
Proof. destruct v; simpl; intro H; try reflexivity; discriminate H. Qed.

Lemma isPromise_native (s : settlement value) : isPromise (VPromise s) = true.
Proof. reflexivity. Qed.

Lemma isPromise_scalar (v : value) :
  typeof v <> TObject -> isPromise v = false.
Proof. destruct v; simpl; intro H; try reflexivity; now elim H. Qed.

(** ** Property lists *)

Lemma lookup_rest (k : string) (ks : list string) (o : object) :
  existsb (String.eqb k) ks = false -> lookup k (rest ks o) = lookup k o.
Proof.
  intro Hk. induction o as [|[k' v] o IH]; simpl; [reflexivity|].
  destruct (String.eqb k k') eqn:E.
  - apply String.eqb_eq in E. subst k'. rewrite Hk. simpl.
    now rewrite String.eqb_refl.
  - destruct (negb (existsb (String.eqb k') ks)); simpl; [|exact IH].
    now rewrite E.
Qed.

Lemma get_rest (k : string) (ks : list string) (o : object) :
  existsb (String.eqb k) ks = false -> get k (rest ks o) = get k o.
Proof. intro Hk. unfold get. now rewrite lookup_rest. Qed.

Lemma lookup_set_prop_same (k : string) (v : value) (o : object) :
  lookup k (set_prop k v o) = Some v.
Proof.
  induction o as [|[k' v'] o IH]; simpl.
  - now rewrite String.eqb_refl.
  - destruct (String.eqb k k') eqn:E; simpl.
    + now rewrite String.eqb_refl.
    + now rewrite E.
Qed.

Lemma lookup_set_prop_other (k k0 : string) (v : value) (o : object) :
  String.eqb k0 k = false -> lookup k0 (set_prop k v o) = lookup k0 o.
Proof.
  intro Hk. induction o as [|[k' v'] o IH]; simpl.
  - now rewrite Hk.
  - destruct (String.eqb k k') eqn:E; simpl.
    + apply String.eqb_eq in E. subst k'. now rewrite Hk.
    + destruct (String.eqb k0 k'); [reflexivity|exact IH].
Qed.

(** ** The action builder *)

Lemma createAction_built (args : object) :
  createAction args =
  ([ELog [VStr "payload"; get "payload" args]],
   Normal (built (get "type" args) (get "asyncType" args)
                 (get "asyncTypeDelimiter" args) (get "payload" args)
                 (get "meta" args) (get "error" args))).
Proof.
  unfold createAction, built, nullish.
  rewrite !get_rest by reflexivity.
  destruct (is_null (get "payload" args)
            || jstype_eqb (typeof (get "payload" args)) TUndefined);
    destruct (truthy (get "error" args));
    destruct (get "meta" args); reflexivity.
Qed.

Lemma createAction_literal (ty payload meta error asyncType delimiter : value) :
  createAction [("type", ty); ("payload", payload); ("meta", meta);
                ("error", error); ("asyncType", asyncType);
                ("asyncTypeDelimiter", delimiter)]
  = ([ELog [VStr "payload"; payload]],
     Normal (built ty asyncType delimiter payload meta error)).
Proof. rewrite createAction_built. reflexivity. Qed.

Lemma lookup_built_type ty asyncType delimiter payload meta error :
  lookup "type" (built ty asyncType delimiter payload meta error)
  = Some (VStr (array_join [ty; asyncType] delimiter)).
Proof. reflexivity. Qed.

Lemma lookup_built_payload ty asyncType delimiter payload meta error :
  lookup "payload" (built ty asyncType delimiter payload meta error)
  = if nullish payload then None else Some payload.
Proof.
  unfold built. destruct (nullish payload), meta, (truthy error); reflexivity.
Qed.

Lemma lookup_built_meta ty asyncType delimiter payload meta error :
  lookup "meta" (built ty asyncType delimiter payload meta error)
  = match meta with VUndef => None | _ => Some meta end.
Proof.
  unfold built. destruct (nullish payload), meta, (truthy error); reflexivity.
Qed.

Lemma lookup_built_error ty asyncType delimiter payload meta error :
  lookup "error" (built ty asyncType delimiter payload meta error)
  = if truthy error then Some error else None.
Proof.
  unfold built. destruct (nullish payload), meta, (truthy error); reflexivity.
Qed.

Lemma nullish_spec (v : value) : nullish v = true <-> v = VNull \/ v = VUndef.
Proof.
  destruct v; simpl; split; intro H; try discriminate H; auto;
    destruct H as [H|H]; discriminate H.
Qed.

Lemma array_join_strings (a b sep : string) :
  array_join [VStr a; VStr b] (VStr sep) = (a ++ sep ++ b)%string.
Proof. reflexivity. Qed.

Lemma array_join_undefined (a b : string) :
  array_join [VStr a; VStr b] VUndef = (a ++ "," ++ b)%string.
Proof. reflexivity. Qed.

(** C8: the built action's type is the base type, the delimiter and the
    async-type token joined in that order (all three being strings); the
    payload field is there exactly when the given payload is neither [null]
    nor [undefined], and then holds it; the error field is there exactly
    when the given flag is truthy, so that [error: false] never appears and
    a flag [true] gives [error: true]. *)
Theorem createAction_type_payload_error
    (args : object) (ty delimiter asyncType : string) :
  get "type" args = VStr ty ->
  get "asyncType" args = VStr asyncType ->
  get "asyncTypeDelimiter" args = VStr delimiter ->
  exists a,
    snd (createAction args) = Normal a
    /\ lookup "type" a = Some (VStr (ty ++ delimiter ++ asyncType)%string)
    /\ lookup "payload" a
       = (if nullish (get "payload" args) then None
          else Some (get "payload" args))
    /\ (has_field "payload" a = true
        <-> get "payload" args <> VNull /\ get "payload" args <> VUndef)
    /\ (has_field "error" a = true <-> truthy (get "error" args) = true)
    /\ lookup "error" a <> Some (VBool false)
    /\ (get "error" args = VBool true -> lookup "error" a = Some (VBool true)).
Proof.
  intros Hty Htok Hdel. rewrite createAction_built. simpl snd.
  eexists. split; [reflexivity|].
  rewrite Hty, Htok, Hdel. unfold has_field.
  rewrite lookup_built_type, lookup_built_payload, lookup_built_error.
  rewrite array_join_strings.
  split; [reflexivity|]. split; [reflexivity|].
  split; [|split; [|split]].
  - destruct (nullish (get "payload" args)) eqn:E; split.
    + discriminate.
    + intros [Hn Hu]. apply nullish_spec in E. destruct E; contradiction.
    + intros _. split; intro H;
        assert (nullish (get "payload" args) = true)
          by (apply nullish_spec; auto); congruence.
    + reflexivity.
  - destruct (truthy (get "error" args)); split; congruence.
  - destruct (truthy (get "error" args)) eqn:E; [|discriminate].
    intro H. injection H as H. rewrite H in E. discriminate E.
  - intro H. rewrite H. reflexivity.
Qed.

Lemma createAction_type_payload_error_witness :
  get "type" pending_args = VStr "FETCH"
  /\ get "asyncType" pending_args = VStr "PENDING"
  /\ get "asyncTypeDelimiter" pending_args = VStr "_"
  /\ exists a,
       snd (createAction pending_args) = Normal a
       /\ lookup "type" a = Some (VStr "FETCH_PENDING")
       /\ lookup "error" a <> Some (VBool false).
Proof.
  repeat split; try reflexivity.
  destruct (@createAction_type_payload_error pending_args "FETCH" "_" "PENDING"
              eq_refl eq_refl eq_refl)
    as (a & Ha & Hty & _ & _ & _ & Herr & _).
  exists a. split; [exact Ha|]. split; [exact Hty|exact Herr].
Defined.

(** C7, as the code has it: the meta field is there exactly when the meta
    the builder is given is not [undefined], and then holds it.  A source
    without [meta] and a source whose [meta] is [undefined] build the same
    action; a [null] meta is kept. *)
Theorem createAction_meta_unless_undefined (args : object) :
  exists a,
    snd (createAction args) = Normal a
    /\ lookup "meta" a
       = match get "meta" args with
         | VUndef => None
         | meta => Some meta
         end.
Proof.
  rewrite createAction_built. simpl snd. eexists. split; [reflexivity|].
  rewrite lookup_built_meta. destruct (get "meta" args); reflexivity.
Qed.

(** C7 as stated fails: this source defines [meta] (as [undefined]) and
    the built action has no [meta] field. *)
Lemma createAction_meta_defined_undefined_dropped :
  ~ (forall a,
       snd (createAction pending_args) = Normal a ->
       (has_field "meta" a = true <-> has_field "meta" pending_args = true)).
Proof.
  intro H.
  specialize (H [("type", VStr "FETCH_PENDING"); ("payload", VStr "optimistic")]
                eq_refl).
  destruct H as [_ H]. specialize (H eq_refl). discriminate H.
Qed.

(** ** The sequencer *)

Lemma forward_eq (next : value -> completion value) (a : value) :
  forward next a = ([ENext a], next a).
Proof. reflexivity. Qed.

Lemma set_prop_same (k : string) (v : value) (o : object) :
  lookup k o = Some v -> set_prop k v o = o.
Proof.
  induction o as [|[k' v'] o IH]; simpl; [discriminate|].
  destruct (String.eqb k k') eqn:E.
  - intro H. injection H as ->. apply String.eqb_eq in E. now subst k'.
  - intro H. now rewrite IH.
Qed.

(** What [destructureAction] finds when the payload itself is a promise,
    and when it is no object and no function at all. *)
Lemma destructureAction_promise (action : object) :
  isPromise (get "payload" action) = true ->
  destructureAction action
  = ret {| promise := get "payload" action; data := VNull |}.
Proof. intro H. unfold destructureAction. now rewrite H. Qed.

Lemma destructureAction_scalar (action : object) :
  typeof (get "payload" action) <> TObject ->
  typeof (get "payload" action) <> TFunction ->
  destructureAction action = ret {| promise := VNull; data := VNull |}.
Proof.
  intros Ho Hf. unfold destructureAction.
  rewrite (isPromise_scalar _ Ho).
  destruct (is_function (get "payload" action)) eqn:E1.
  { apply is_function_typeof in E1. contradiction. }
  destruct (is_object (get "payload" action)) eqn:E2.
  { apply jstype_eqb_eq in E2. contradiction. }
  reflexivity.
Qed.

(** The first branch of the sequencer: a payload that is a promise sends
    the action (a copy, with the same fields) to [next], and that is all
    the middleware does. *)
Lemma promise_payload_passthrough (types typeDelimiter : value)
    (api : MiddlewareAPI) (next : value -> completion value) (action : object) :
  isPromise (get "payload" action) = true ->
  promiseMiddleware types typeDelimiter api next action
  = sync ([ENext (VObj action)], next (VObj action)).
Proof.
  intro H. unfold promiseMiddleware.
  rewrite (destructureAction_promise _ H). simpl. rewrite H.
  assert (Hs : set_prop "payload" (get "payload" action) action = action).
  { apply set_prop_same. unfold get in *.
    destruct (lookup "payload" action); [reflexivity|discriminate H]. }
  rewrite Hs. reflexivity.
Qed.

(** An action whose payload is, to [typeof], no object and no function (a
    number, a string, a boolean, [undefined]) goes to [next] once, as it
    is; nothing is dispatched, nothing is left for later and the call
    returns what [next] returns.  [null] is an object to [typeof] and is
    not among them. *)
Theorem scalar_payload_passthrough (config : option object)
    (api : MiddlewareAPI) (next : value -> completion value) (action : object) :
  typeof (get "payload" action) <> TObject ->
  typeof (get "payload" action) <> TFunction ->
  let o := createPromise config api next action in
  forwarded (fst (now o)) = [VObj action]
  /\ fst (now o) = [ENext (VObj action)]
  /\ snd (now o) = next (VObj action)
  /\ later o = [].
Proof.
  intros Ho Hf. unfold createPromise, promiseMiddleware.
  rewrite (destructureAction_scalar _ Ho Hf). simpl. repeat split.
Qed.

Lemma scalar_payload_passthrough_witness :
  typeof (get "payload" (fetch (VNum 3))) <> TObject
  /\ typeof (get "payload" (fetch (VNum 3))) <> TFunction
  /\ forwarded (fst (now (createPromise None echo_api echo (fetch (VNum 3)))))
     = [VObj (fetch (VNum 3))].
Proof.
  split; [discriminate|]. split; [discriminate|].
  apply (@scalar_payload_passthrough None echo_api echo (fetch (VNum 3)));
    discriminate.
Defined.

(** C6, on the code: [{ type: "FETCH", payload: null }], whose payload is
    no promise, no function and no object, is not forwarded at all: the
    dispatch throws a type error and [next] is never called, under any
    configuration. *)
Theorem null_payload_is_not_passed_through (config : option object)
    (api : MiddlewareAPI) (next : value -> completion value) :
  forwarded (fst (now (createPromise config api next (fetch VNull)))) = []
  /\ snd (now (createPromise config api next (fetch VNull)))
     = Abrupt (TypeError "Cannot read property data")
  /\ later (createPromise config api next (fetch VNull)) = [].
Proof.
  assert (H : createPromise config api next (fetch VNull)
              = sync ([], Abrupt (TypeError "Cannot read property data"))).
  { unfold createPromise, promiseMiddleware. reflexivity. }
  rewrite H. repeat split.
Qed.

(** *** When the lifecycle is reached *)

Lemma invoke_then_now_silent (p : value) (f g : value -> M value) :
  fst (now (invoke_then p f g)) = [].
Proof.
  unfold invoke_then.
  destruct (member p "then") as [| | | | | |src body props|]; try reflexivity.
  destruct body as [v|e|[v|e|]]; reflexivity.
Qed.

Lemma and_then_normal {A} (evs : list event) (a : A) (k : A -> outcome) :
  and_then (evs, Normal a) k
  = {| now := (evs ++ fst (now (k a)), snd (now (k a)));
       later := later (k a) |}.
Proof. reflexivity. Qed.

Lemma and_then_abrupt {A} (evs : list event) (e : value) (k : A -> outcome) :
  and_then (evs, Abrupt e) k = sync (evs, Abrupt e).
Proof. reflexivity. Qed.

(** The pending action has the pending token in its type, the optimistic
    data as its payload when there is some, the meta of the action when
    that is not [undefined], and no error field. *)
Lemma pending_action_fields (types typeDelimiter : value) (action : object)
    (d : destructured) :
  let a := pending_action types typeDelimiter action d in
  lookup "type" a
  = Some (VStr (array_join [get "type" action; member types "pending"]
                           typeDelimiter))
  /\ lookup "payload" a = (if nullish (data d) then None else Some (data d))
  /\ lookup "meta" a = match get "meta" action with
                       | VUndef => None
                       | meta => Some meta
                       end
  /\ lookup "error" a = None.
Proof.
  unfold pending_action. cbv zeta.
  rewrite lookup_built_type, lookup_built_payload, lookup_built_meta,
    lookup_built_error.
  repeat split. destruct (get "meta" action); reflexivity.
Qed.

Section Lifecycle.

Variables (types typeDelimiter : value) (tys : object).
Variables (api : MiddlewareAPI) (next : value -> completion value).
Variables (action : object) (evs : list event) (d : destructured).

Hypothesis types_object : types = VObj tys.
Hypothesis found : destructureAction action = (evs, Normal d).
Hypothesis not_detected : isPromise (promise d) = false.
Hypothesis is_truthy : truthy (promise d) = true.

Lemma emitPending_eq :
  emitPending types typeDelimiter next action d
  = ([ELog [VStr "payload"; data d];
      ENext (VObj (pending_action types typeDelimiter action d))],
     next (VObj (pending_action types typeDelimiter action d))).
Proof.
  unfold emitPending. rewrite types_object. simpl get_member.
  unfold lift, bind at 1. rewrite createAction_literal.
  unfold bind at 1. rewrite forward_eq.
  reflexivity.
Qed.

Lemma onFulfilled_eq (v : value) :
  onFulfilled types typeDelimiter api action v
  = ([ELog [VStr "payload"; v];
      EDispatch (VObj (fulfilled_action types typeDelimiter action v))],
     match dispatch api (VObj (fulfilled_action types typeDelimiter action v))
     with
     | Normal _ =>
         Normal (VObj [("value", v);
                       ("action",
                        VObj (fulfilled_action types typeDelimiter action v))])
     | Abrupt e => Abrupt e
     end).
Proof.
  unfold onFulfilled, fulfilled_action. rewrite types_object.
  simpl get_member. unfold lift, bind at 1. rewrite createAction_literal.
  unfold bind at 1. unfold redispatch, tell, lift, bind, ret.
  simpl member. destruct (dispatch api _); reflexivity.
Qed.

Lemma onRejected_eq (e : value) :
  onRejected types typeDelimiter api action e
  = ([ELog [VStr "payload"; e];
      EDispatch (VObj (rejected_action types typeDelimiter action e))],
     match dispatch api (VObj (rejected_action types typeDelimiter action e))
     with
     | Normal _ => Abrupt e
     | Abrupt e' => Abrupt e'
     end).
Proof.
  unfold onRejected, rejected_action. rewrite types_object.
  simpl get_member. unfold lift, bind at 1. rewrite createAction_literal.
  unfold bind at 1. unfold redispatch, tell, lift, bind, throw.
  simpl member. destruct (dispatch api _); reflexivity.
Qed.

Lemma lifecycle_unfold :
  promiseMiddleware types typeDelimiter api next action
  = and_then (evs ++ pending_trace types typeDelimiter action d,
              next (VObj (pending_action types typeDelimiter action d)))
      (fun _ => invoke_then (promise d)
                  (onFulfilled types typeDelimiter api action)
                  (onRejected types typeDelimiter api action)).
Proof.
  unfold promiseMiddleware. rewrite found, and_then_normal.
  rewrite not_detected, is_truthy. simpl negb. cbv iota.
  rewrite emitPending_eq.
  destruct (next (VObj (pending_action types typeDelimiter action d)))
    as [r|e].
  - rewrite !and_then_normal. simpl. now rewrite <- app_assoc.
  - rewrite !and_then_abrupt. reflexivity.
Qed.

(** The pending action goes to [next] first, whatever follows. *)
Lemma lifecycle_now_trace :
  fst (now (promiseMiddleware types typeDelimiter api next action))
  = evs ++ pending_trace types typeDelimiter action d.
Proof.
  rewrite lifecycle_unfold.
  destruct (next (VObj (pending_action types typeDelimiter action d)))
    as [r|e]; [|reflexivity].
  rewrite and_then_normal. simpl.
  now rewrite invoke_then_now_silent, app_nil_r.
Qed.

Lemma lifecycle_next_throws (e : value) :
  next (VObj (pending_action types typeDelimiter action d)) = Abrupt e ->
  promiseMiddleware types typeDelimiter api next action
  = sync (evs ++ pending_trace types typeDelimiter action d,
          Abrupt e).
Proof. intro Hn. rewrite lifecycle_unfold, Hn. reflexivity. Qed.

(** On success the fulfilled action goes to [dispatch], once, after the
    pending one, and the returned promise resolves to the value and that
    action. *)
Lemma lifecycle_fulfilled (src : string) (props : object) (v r0 r1 : value) :
  member (promise d) "then" = VFun src (ThenOf (Fulfils v)) props ->
  next (VObj (pending_action types typeDelimiter action d)) = Normal r0 ->
  dispatch api (VObj (fulfilled_action types typeDelimiter action v))
  = Normal r1 ->
  promiseMiddleware types typeDelimiter api next action
  = {| now := (evs ++ pending_trace types typeDelimiter action d,
               Normal (VPromise (Fulfils (VObj
                 [("value", v);
                  ("action",
                   VObj (fulfilled_action types typeDelimiter action v))]))));
       later := [ELog [VStr "payload"; v];
                 EDispatch
                   (VObj (fulfilled_action types typeDelimiter action v))] |}.
Proof.
  intros Hthen Hn Hd. rewrite lifecycle_unfold, Hn, and_then_normal.
  unfold invoke_then. rewrite Hthen, onFulfilled_eq, Hd. simpl.
  now rewrite app_nil_r.
Qed.

(** On failure the rejected action goes to [dispatch], once, after the
    pending one, and the returned promise rejects with the error the
    thenable failed with. *)
Lemma lifecycle_rejected (src : string) (props : object) (e r0 r1 : value) :
  member (promise d) "then" = VFun src (ThenOf (Rejects e)) props ->
  next (VObj (pending_action types typeDelimiter action d)) = Normal r0 ->
  dispatch api (VObj (rejected_action types typeDelimiter action e))
  = Normal r1 ->
  promiseMiddleware types typeDelimiter api next action
  = {| now := (evs ++ pending_trace types typeDelimiter action d,
               Normal (VPromise (Rejects e)));
       later := [ELog [VStr "payload"; e];
                 EDispatch
                   (VObj (rejected_action types typeDelimiter action e))] |}.
Proof.
  intros Hthen Hn Hd. rewrite lifecycle_unfold, Hn, and_then_normal.
  unfold invoke_then. rewrite Hthen, onRejected_eq, Hd. simpl.
  now rewrite app_nil_r.
Qed.

(** What reaches this point is, by the two tests before it, a truthy
    value the detector turned down.  Unless it has a callable [then]
    all the same, calling its [then] is a type error. *)
Lemma lifecycle_then_missing (r0 : value) :
  is_function (member (promise d) "then") = false ->
  next (VObj (pending_action types typeDelimiter action d)) = Normal r0 ->
  snd (now (promiseMiddleware types typeDelimiter api next action))
  = Abrupt (TypeError "is not a function").
Proof.
  intros Hthen Hn. rewrite lifecycle_unfold, Hn, and_then_normal.
  unfold invoke_then.
  destruct (member (promise d) "then"); try reflexivity.
  discriminate Hthen.
Qed.

End Lifecycle.

(** *** Payloads that are promises *)

(** C1, on the code: [{ type: "FETCH", payload: Promise.resolve(42) }]
    under the default configuration goes to [next] unchanged.  No
    [FETCH_PENDING] is forwarded, nothing is dispatched, nothing is left for
    later, and the call returns what [next] returns. *)
Theorem resolved_payload_is_passed_through
    (api : MiddlewareAPI) (next : value -> completion value) :
  createPromise None api next (fetch (resolved (VNum 42)))
  = sync ([ENext (VObj (fetch (resolved (VNum 42))))],
          next (VObj (fetch (resolved (VNum 42))))).
Proof. apply promise_payload_passthrough. reflexivity. Qed.

(** C3, on the code: [{ type: "FETCH", payload: Promise.reject(Error("x")) }]
    goes to [next] unchanged.  No pending and no rejected action is emitted
    and the call returns what [next] returns, not a promise that rejects. *)
Theorem rejected_payload_is_passed_through
    (api : MiddlewareAPI) (next : value -> completion value) :
  createPromise None api next (fetch (rejected_with (Error "x")))
  = sync ([ENext (VObj (fetch (rejected_with (Error "x"))))],
          next (VObj (fetch (rejected_with (Error "x"))))).
Proof. apply promise_payload_passthrough. reflexivity. Qed.

(** C5, on the code: for
    [{ type: "FETCH", payload: { promise: Promise.resolve(1), data: "optimistic" } }]
    the one action that goes to [next] is the action with the inner promise
    as its payload.  No pending action is emitted and the optimistic data is
    dropped. *)
Theorem optimistic_payload_is_passed_through
    (api : MiddlewareAPI) (next : value -> completion value) :
  createPromise None api next
    (fetch (VObj [("promise", resolved (VNum 1)); ("data", VStr "optimistic")]))
  = sync ([ENext (VObj (fetch (resolved (VNum 1))))],
          next (VObj (fetch (resolved (VNum 1))))).
Proof. reflexivity. Qed.

(** The steps after the guard do what their comments say on the one kind
    of thenable the guard lets through, a function that carries a [then]:
    pending to [next] at once, fulfilled (or rejected) to [dispatch] later,
    and a promise for the value and the action (or failing with the
    error). *)
Example callable_thenable_fulfilled :
  createPromise None echo_api echo (fetch (deferred (Fulfils (VNum 42))))
  = {| now := ([EInvoke (deferred (Fulfils (VNum 42)));
                ELog [VStr "payload"; VNull];
                ENext (VObj [("type", VStr "FETCH_PENDING")])],
               Normal (resolved (VObj
                 [("value", VNum 42);
                  ("action", VObj [("type", VStr "FETCH_FULFILLED");
                                   ("payload", VNum 42)])])));
       later := [ELog [VStr "payload"; VNum 42];
                 EDispatch (VObj [("type", VStr "FETCH_FULFILLED");
                                  ("payload", VNum 42)])] |}.
Proof. reflexivity. Qed.

Example callable_thenable_rejected :
  createPromise None echo_api echo (fetch (deferred (Rejects (Error "x"))))
  = {| now := ([EInvoke (deferred (Rejects (Error "x")));
                ELog [VStr "payload"; VNull];
                ENext (VObj [("type", VStr "FETCH_PENDING")])],
               Normal (rejected_with (Error "x")));
       later := [ELog [VStr "payload"; Error "x"];
                 EDispatch (VObj [("type", VStr "FETCH_REJECTED");
                                  ("payload", Error "x");
                                  ("error", VBool true)])] |}.
Proof. reflexivity. Qed.

(** A function returning a plain number gets as far as the pending action
    and then fails on [promise.then]. *)
Example number_result_type_error :
  createPromise None echo_api echo (fetch (VFun "() => 3" (Returns (VNum 3)) []))
  = sync ([EInvoke (VFun "() => 3" (Returns (VNum 3)) []);
           ELog [VStr "payload"; VNull];
           ENext (VObj [("type", VStr "FETCH_PENDING")])],
          Abrupt (TypeError "is not a function")).
Proof. reflexivity. Qed.

(** A source whose [meta] is [undefined] and a source without [meta] get
    the same pending action. *)
Example pending_meta_undefined :
  forwarded (fst (now (createPromise None echo_api echo
     [("type", VStr "FETCH"); ("payload", deferred Pends); ("meta", VUndef)])))
  = [VObj [("type", VStr "FETCH_PENDING")]].
Proof. reflexivity. Qed.

(** ** The destructurer *)

(** C2, on the code: a [null] payload is an object to [typeof], so the
    object branch reads [payload.data] and the call throws. *)
Theorem destructureAction_null_payload_throws :
  destructureAction (fetch VNull)
  = ([], Abrupt (TypeError "Cannot read property data")).
Proof. reflexivity. Qed.

(** Everywhere else the destructurer returns, as long as the function it
    calls does. *)
Lemma destructureAction_returns (action : object) :
  get "payload" action <> VNull ->
  (is_function (get "payload" action) = true ->
   exists r, call (get "payload" action) = Normal r) ->
  (is_function (member (get "payload" action) "promise") = true ->
   exists r, call (member (get "payload" action) "promise") = Normal r) ->
  exists d, snd (destructureAction action) = Normal d.
Proof.
  intros Hnull Hf Hp. unfold destructureAction.
  destruct (get "payload" action) as [| |b|n|s|pp|src body pp|s];
    try (now elim Hnull); try (eexists; reflexivity).
  - destruct (isPromise (VObj pp)); [eexists; reflexivity|].
    simpl. simpl in Hp.
    destruct (is_function (get "promise" pp)).
    + destruct (Hp eq_refl) as [r Hr]. unfold invoke, tell, lift, bind.
      rewrite Hr. eexists; reflexivity.
    + eexists; reflexivity.
  - simpl. simpl in Hf. destruct (Hf eq_refl) as [r Hr].
    unfold invoke, tell, lift, bind. rewrite Hr. eexists; reflexivity.
Qed.

(** An exception of the function the destructurer calls comes out of it. *)
Lemma destructureAction_callable_throws (action : object) (e : value) :
  is_function (get "payload" action) = true ->
  call (get "payload" action) = Abrupt e ->
  destructureAction action = ([EInvoke (get "payload" action)], Abrupt e).
Proof.
  intros Hf Hc. unfold destructureAction.
  rewrite (is_function_not_promise _ Hf), Hf.
  unfold invoke, tell, lift, bind. now rewrite Hc.
Qed.

(** C4: a [payload.promise] that is callable and has a callable [then] is
    called, once, and what it returns is the promise found; the data is
    [payload.data]. *)
Theorem callable_promise_field_is_invoked (action pp : object) (r : value) :
  get "payload" action = VObj pp ->
  isPromise (VObj pp) = false ->
  is_function (get "promise" pp) = true ->
  is_function (member (get "promise" pp) "then") = true ->
  call (get "promise" pp) = Normal r ->
  destructureAction action
  = ([EInvoke (get "promise" pp)],
     Normal {| promise := r; data := get "data" pp |}).
Proof.
  intros Hpay Hnp Hf _ Hcall. unfold destructureAction.
  rewrite Hpay, Hnp. simpl. rewrite Hf.
  rewrite (is_function_not_promise _ Hf).
  unfold invoke, tell, lift, bind. now rewrite Hcall.
Qed.

Lemma callable_promise_field_is_invoked_witness :
  is_function (get "promise" thenable_fn_payload) = true
  /\ is_function (member (get "promise" thenable_fn_payload) "then") = true
  /\ destructureAction (fetch (VObj thenable_fn_payload))
     = ([EInvoke thenable_fn],
        Normal {| promise := VNum 7; data := VStr "optimistic" |}).
Proof.
  split; [reflexivity|]. split; [reflexivity|].
  apply (@callable_promise_field_is_invoked
           (fetch (VObj thenable_fn_payload)) thenable_fn_payload (VNum 7));
    reflexivity.
Defined.

(** The second test is made whatever the first one did: a [payload.promise]
    that the detector accepts is the promise found, and nothing is called. *)
Lemma promise_field_is_used (action pp : object) :
  get "payload" action = VObj pp ->
  isPromise (VObj pp) = false ->
  isPromise (get "promise" pp) = true ->
  destructureAction action
  = ret {| promise := get "promise" pp; data := get "data" pp |}.
Proof.
  intros Hpay Hnp Hp. unfold destructureAction.
  rewrite Hpay, Hnp. simpl. rewrite Hp.
  now rewrite (isPromise_not_function _ Hp).
Qed.

(** ** Configuration *)

(** C9: a configuration that is passed is taken as it is.  Without a
    [typeDelimiter] the middleware runs with [undefined] for it, with which
    the builder joins by a comma; the defaults are what runs when no
    configuration is passed. *)
Theorem config_is_not_merged_with_defaults (cfg : object) :
  lookup "typeDelimiter" cfg = None ->
  createPromise (Some cfg) = promiseMiddleware (get "types" cfg) VUndef
  /\ (forall (ty asyncType : string) (payload meta error : value),
        exists a,
          snd (createAction [("type", VStr ty); ("payload", payload);
                             ("meta", meta); ("error", error);
                             ("asyncType", VStr asyncType);
                             ("asyncTypeDelimiter", VUndef)]) = Normal a
          /\ lookup "type" a = Some (VStr (ty ++ "," ++ asyncType)%string))
  /\ createPromise None = promiseMiddleware DefaultTypes (VStr "_").
Proof.
  intro H. split; [|split].
  - unfold createPromise, get at 2. now rewrite H.
  - intros. rewrite createAction_literal. eexists. split; reflexivity.
  - reflexivity.
Qed.

Lemma config_is_not_merged_with_defaults_witness :
  lookup "typeDelimiter" types_only = None
  /\ forwarded (fst (now (createPromise (Some types_only) echo_api echo
                            (fetch (deferred (Fulfils (VNum 42)))))))
     = [VObj [("type", VStr "FETCH,PENDING")]]
  /\ dispatched (later (createPromise (Some types_only) echo_api echo
                          (fetch (deferred (Fulfils (VNum 42))))))
     = [VObj [("type", VStr "FETCH,FULFILLED"); ("payload", VNum 42)]].
Proof.
  split; [reflexivity|].
  rewrite (proj1 (@config_is_not_merged_with_defaults types_only eq_refl)).
  split; reflexivity.
Defined.

(** A configuration without [types] is not completed either: the first
    action that needs a token fails on [types.pending]. *)
Example config_without_types :
  createPromise (Some [("typeDelimiter", VStr "/")]) echo_api echo
    (fetch (deferred (Fulfils (VNum 42))))
  = sync ([EInvoke (deferred (Fulfils (VNum 42)))],
          Abrupt (TypeError "Cannot read property pending")).
Proof. reflexivity. Qed.

Example config_custom :
  forwarded (fst (now (createPromise
     (Some [("types", VObj [("pending", VStr "START"); ("fulfilled", VStr "OK");
                            ("rejected", VStr "FAIL")]);
            ("typeDelimiter", VStr "/")])
     echo_api echo (fetch (deferred Pends)))))
  = [VObj [("type", VStr "FETCH/START")]].
Proof. reflexivity. Qed.

(** ** The default export *)

(** C10: given an argument whose [dispatch] is not a function, the default
    export returns [null]; all it may do before is log the notice. *)
Theorem middleware_null_without_dispatch (process : value) (arg : object) :
  typeof (get "dispatch" arg) <> TFunction ->
  snd (middleware process arg) = Normal None
  /\ (fst (middleware process arg) = []
      \/ fst (middleware process arg) = [ELog [VStr upgrade_notice]]).
Proof.
  intro H. unfold middleware.
  destruct (is_function (get "dispatch" arg)) eqn:E.
  { apply is_function_typeof in E. contradiction. }
  destruct (is_development process); simpl; auto.
Qed.

Lemma middleware_null_without_dispatch_witness :
  typeof (get "dispatch" [("getState", VNull)]) <> TFunction
  /\ snd (middleware dev_process [("getState", VNull)]) = Normal None.
Proof.
  split; [discriminate|].
  apply (@middleware_null_without_dispatch dev_process [("getState", VNull)]).
  discriminate.
Defined.

(** With a [dispatch] that is a function the default export is
    [createPromise()] applied to it, and nothing is logged. *)
Lemma middleware_with_dispatch (process : value) (arg : object) :
  typeof (get "dispatch" arg) = TFunction ->
  middleware process arg
  = ret (Some (createPromise None
                 {| dispatch := fun _ => call (get "dispatch" arg) |})).
Proof.
  intro H. unfold middleware.
  now rewrite (proj2 (is_function_typeof _) H).
Qed.

Lemma middleware_some_needs_dispatch (process : value) (arg : object) mw :
  snd (middleware process arg) = Normal (Some mw) ->
  typeof (get "dispatch" arg) = TFunction.
Proof.
  unfold middleware.
  destruct (is_function (get "dispatch" arg)) eqn:E.
  - intros _. now apply is_function_typeof.
  - destruct (is_development process); simpl; discriminate.
Qed.

(** * Further properties of the code *)

(** ** Traces *)


Lemma dispatched_app (xs ys : list event) :
  dispatched (xs ++ ys) = dispatched xs ++ dispatched ys.
Proof.
  induction xs as [|e xs IH]; [reflexivity|].
  destruct e; simpl; now rewrite ?IH.
Qed.

(** ** The detector, once more *)

(** X1: the detector turns down every function, whatever members it has:
    a callable value with a [then] of its own is not a promise to it. *)
Theorem detector_rejects_callables (v : value) :
  typeof v = TFunction -> isPromise v = false.
Proof. destruct v; simpl; intro H; try reflexivity; discriminate H. Qed.

Lemma detector_rejects_callables_witness :
  typeof thenable_fn = TFunction
  /\ typeof (member thenable_fn "then") = TFunction
  /\ isPromise thenable_fn = false.
Proof.
  split; [reflexivity|]. split; [reflexivity|].
  apply (@detector_rejects_callables thenable_fn). reflexivity.
Defined.

(** A value the detector accepts is truthy. *)
Lemma isPromise_truthy (v : value) : isPromise v = true -> truthy v = true.
Proof. destruct v; simpl; intro H; try reflexivity; discriminate H. Qed.

(** ** The destructurer, all branches *)

(** What the destructurer leaves in the trace: nothing, or the one call of
    the function it found as the payload or as [payload.promise]. *)
Lemma destructureAction_trace (action : object) :
  fst (destructureAction action) = []
  \/ (is_function (get "payload" action) = true
      /\ fst (destructureAction action) = [EInvoke (get "payload" action)])
  \/ (is_function (member (get "payload" action) "promise") = true
      /\ fst (destructureAction action)
         = [EInvoke (member (get "payload" action) "promise")]).
Proof.
  unfold destructureAction.
  destruct (get "payload" action) as [| |b|n|s|pp|src body pp|s];
    try (left; reflexivity).
  - destruct (isPromise (VObj pp)); [left; reflexivity|]. simpl.
    destruct (is_function (get "promise" pp)) eqn:E; [|left; reflexivity].
    right; right. split; [reflexivity|].
    unfold invoke, tell, lift, bind.
    destruct (call (get "promise" pp)); reflexivity.
  - right; left. split; [reflexivity|].
    destruct body as [v|e|s]; reflexivity.
Qed.

(** X2: the destructurer calls at most one function, and only a function
    it found as the payload or as [payload.promise]; it never logs, never
    calls [next] and never calls [dispatch]. *)
Theorem destructureAction_calls_at_most_one_function (action : object) :
  (length (fst (destructureAction action)) <= 1)%nat
  /\ forwarded (fst (destructureAction action)) = []
  /\ dispatched (fst (destructureAction action)) = []
  /\ forall ev, In ev (fst (destructureAction action)) ->
       exists f, ev = EInvoke f /\ typeof f = TFunction
                 /\ (f = get "payload" action
                     \/ f = member (get "payload" action) "promise").
Proof.
  destruct (destructureAction_trace action) as [H|[[Hf H]|[Hf H]]];
    rewrite H; simpl; repeat split; auto.
  - intros ev [].
  - intros ev [<-|[]]. eexists. split; [reflexivity|].
    split; [now apply is_function_typeof|now left].
  - intros ev [<-|[]]. eexists. split; [reflexivity|].
    split; [now apply is_function_typeof|now right].
Qed.

(** ** The sequencer, branch by branch *)

Lemma middleware_destructure_throws (types typeDelimiter : value)
    (api : MiddlewareAPI) (next : value -> completion value)
    (action : object) (evs : list event) (e : value) :
  destructureAction action = (evs, Abrupt e) ->
  promiseMiddleware types typeDelimiter api next action = sync (evs, Abrupt e).
Proof. intro H. unfold promiseMiddleware. now rewrite H. Qed.

Lemma middleware_nothing_found (types typeDelimiter : value)
    (api : MiddlewareAPI) (next : value -> completion value)
    (action : object) (evs : list event) (d : destructured) :
  destructureAction action = (evs, Normal d) ->
  truthy (promise d) = false ->
  promiseMiddleware types typeDelimiter api next action
  = sync (evs ++ [ENext (VObj action)], next (VObj action)).
Proof.
  intros H Ht. unfold promiseMiddleware. rewrite H, and_then_normal.
  destruct (isPromise (promise d)) eqn:E.
  { apply isPromise_truthy in E. congruence. }
  rewrite Ht. reflexivity.
Qed.

Lemma middleware_promise_found (types typeDelimiter : value)
    (api : MiddlewareAPI) (next : value -> completion value)
    (action : object) (evs : list event) (d : destructured) :
  destructureAction action = (evs, Normal d) ->
  isPromise (promise d) = true ->
  promiseMiddleware types typeDelimiter api next action
  = sync (evs ++ [ENext (VObj (set_prop "payload" (promise d) action))],
          next (VObj (set_prop "payload" (promise d) action))).
Proof.
  intros H Hp. unfold promiseMiddleware. rewrite H, and_then_normal, Hp.
  reflexivity.
Qed.

Lemma set_prop_keys (k : string) (v v0 : value) (o : object) :
  lookup k o = Some v0 -> map fst (set_prop k v o) = map fst o.
Proof.
  induction o as [|[k' v'] o IH]; simpl; [discriminate|].
  destruct (String.eqb k k') eqn:E; simpl.
  - intros _. apply String.eqb_eq in E. now subst k'.
  - intro H. now rewrite IH.
Qed.

Lemma destructureAction_function (action : object) :
  is_function (get "payload" action) = true ->
  destructureAction action
  = ([EInvoke (get "payload" action)],
     match call (get "payload" action) with
     | Normal r => Normal {| promise := r; data := VNull |}
     | Abrupt e => Abrupt e
     end).
Proof.
  intro Hf. unfold destructureAction.
  rewrite (is_function_not_promise _ Hf), Hf.
  unfold invoke, tell, lift, bind.
  destruct (call (get "payload" action)); reflexivity.
Qed.

(** X3: an object payload with nothing usable under [promise] (and no
    [then] of its own) is no business of the middleware: the action itself
    goes to [next], once, and the call returns what [next] returns. *)
Theorem object_payload_without_promise_passes (config : option object)
    (api : MiddlewareAPI) (next : value -> completion value)
    (action pp : object) :
  get "payload" action = VObj pp ->
  typeof (get "then" pp) <> TFunction ->
  typeof (get "promise" pp) <> TFunction ->
  isPromise (get "promise" pp) = false ->
  createPromise config api next action
  = sync ([ENext (VObj action)], next (VObj action)).
Proof.
  intros Hpay Hthen Hf Hp. unfold createPromise.
  assert (Hd : destructureAction action
               = ([], Normal {| promise := VNull; data := get "data" pp |})).
  { unfold destructureAction. rewrite Hpay.
    assert (E1 : isPromise (VObj pp) = false).
    { unfold isPromise. simpl.
      destruct (is_function (get "then" pp)) eqn:E; [|reflexivity].
      apply is_function_typeof in E. contradiction. }
    rewrite E1. simpl.
    destruct (is_function (get "promise" pp)) eqn:E2.
    { apply is_function_typeof in E2. contradiction. }
    rewrite Hp. reflexivity. }
  apply (middleware_nothing_found _ _ _ _ _ Hd). reflexivity.
Qed.

Lemma object_payload_without_promise_passes_witness :
  get "payload" (fetch (VObj plain_payload)) = VObj plain_payload
  /\ createPromise None echo_api echo (fetch (VObj plain_payload))
     = sync ([ENext (VObj (fetch (VObj plain_payload)))],
             Normal (VObj (fetch (VObj plain_payload)))).
Proof.
  split; [reflexivity|].
  apply (@object_payload_without_promise_passes None echo_api echo
           (fetch (VObj plain_payload)) plain_payload);
    try reflexivity; discriminate.
Defined.

(** X4: an action whose payload is [null] is never forwarded: the
    dispatch throws a type error before [next] is called, whatever the
    configuration. *)
Theorem null_payload_dispatch_throws (config : option object)
    (api : MiddlewareAPI) (next : value -> completion value)
    (action : object) :
  get "payload" action = VNull ->
  createPromise config api next action
  = sync ([], Abrupt (TypeError "Cannot read property data")).
Proof.
  intro H. unfold createPromise. apply middleware_destructure_throws.
  unfold destructureAction. now rewrite H.
Qed.

Lemma null_payload_dispatch_throws_witness :
  get "payload" (fetch VNull) = VNull
  /\ forwarded (fst (now (createPromise None echo_api echo (fetch VNull)))) = [].
Proof.
  split; [reflexivity|].
  rewrite (@null_payload_dispatch_throws None echo_api echo (fetch VNull)
             eq_refl).
  reflexivity.
Defined.

(** X5: a payload function that returns a falsy value ([undefined],
    [null], [false], [0], the empty string) is called once and the action
    then goes to [next] as it came, the function still its payload. *)
Theorem payload_function_returning_falsy (config : option object)
    (api : MiddlewareAPI) (next : value -> completion value)
    (action : object) (r : value) :
  typeof (get "payload" action) = TFunction ->
  call (get "payload" action) = Normal r ->
  truthy r = false ->
  createPromise config api next action
  = sync ([EInvoke (get "payload" action); ENext (VObj action)],
          next (VObj action)).
Proof.
  intros Hf Hc Ht. unfold createPromise.
  apply is_function_typeof in Hf.
  pose proof (destructureAction_function action Hf) as Hd.
  rewrite Hc in Hd.
  apply (middleware_nothing_found _ _ _ _ _ Hd). exact Ht.
Qed.

Lemma payload_function_returning_falsy_witness :
  typeof (get "payload" (fetch returns_nothing)) = TFunction
  /\ createPromise None echo_api echo (fetch returns_nothing)
     = sync ([EInvoke returns_nothing; ENext (VObj (fetch returns_nothing))],
             Normal (VObj (fetch returns_nothing))).
Proof.
  split; [reflexivity|].
  apply (@payload_function_returning_falsy None echo_api echo
           (fetch returns_nothing) VUndef); reflexivity.
Defined.

(** X6: a payload function that returns a promise is called once and the
    action goes to [next] with that promise as its payload: the same
    properties in the same order, every other one untouched.  No pending
    action is built and nothing is registered on the promise. *)
Theorem payload_function_returning_promise (config : option object)
    (api : MiddlewareAPI) (next : value -> completion value)
    (action : object) (p : value) :
  typeof (get "payload" action) = TFunction ->
  call (get "payload" action) = Normal p ->
  isPromise p = true ->
  exists a,
    createPromise config api next action
    = sync ([EInvoke (get "payload" action); ENext (VObj a)], next (VObj a))
    /\ lookup "payload" a = Some p
    /\ (forall k, String.eqb k "payload" = false -> lookup k a = lookup k action)
    /\ map fst a = map fst action.
Proof.
  intros Hf Hc Hp. unfold createPromise.
  assert (Hl : exists f, lookup "payload" action = Some f).
  { unfold get in Hf. destruct (lookup "payload" action) as [f|];
      [now exists f|discriminate Hf]. }
  apply is_function_typeof in Hf.
  pose proof (destructureAction_function action Hf) as Hd.
  rewrite Hc in Hd.
  exists (set_prop "payload" p action). split; [|split; [|split]].
  - apply (middleware_promise_found _ _ _ _ _ Hd). exact Hp.
  - apply lookup_set_prop_same.
  - intros k Hk. now apply lookup_set_prop_other.
  - destruct Hl as [f Hl]. now apply set_prop_keys with (v0 := f).
Qed.

Lemma payload_function_returning_promise_witness :
  typeof (get "payload" (fetch returns_promise)) = TFunction
  /\ isPromise (resolved (VNum 1)) = true
  /\ exists a,
       createPromise None echo_api echo (fetch returns_promise)
       = sync ([EInvoke returns_promise; ENext (VObj a)], echo (VObj a))
       /\ lookup "payload" a = Some (resolved (VNum 1)).
Proof.
  split; [reflexivity|]. split; [reflexivity|].
  destruct (@payload_function_returning_promise None echo_api echo
              (fetch returns_promise) (resolved (VNum 1))
              eq_refl eq_refl eq_refl) as (a & H1 & H2 & _).
  exists a. split; [exact H1|exact H2].
Defined.

(** X7: an exception of the payload function comes out of the dispatch;
    the function was called once and [next] was not. *)
Theorem payload_function_throwing (config : option object)
    (api : MiddlewareAPI) (next : value -> completion value)
    (action : object) (e : value) :
  typeof (get "payload" action) = TFunction ->
  call (get "payload" action) = Abrupt e ->
  createPromise config api next action
  = sync ([EInvoke (get "payload" action)], Abrupt e).
Proof.
  intros Hf Hc. unfold createPromise.
  apply is_function_typeof in Hf.
  pose proof (destructureAction_function action Hf) as Hd.
  rewrite Hc in Hd. now apply middleware_destructure_throws.
Qed.

Lemma payload_function_throwing_witness :
  typeof (get "payload" (fetch throws_error)) = TFunction
  /\ createPromise None echo_api echo (fetch throws_error)
     = sync ([EInvoke throws_error], Abrupt (Error "x")).
Proof.
  split; [reflexivity|].
  apply (@payload_function_throwing None echo_api echo (fetch throws_error)
           (Error "x")); reflexivity.
Defined.

(** ** Who is called, and how often *)

Lemma destructureAction_silent (action : object) :
  forwarded (fst (destructureAction action)) = []
  /\ dispatched (fst (destructureAction action)) = [].
Proof.
  destruct (destructureAction_trace action) as [H|[[_ H]|[_ H]]];
    rewrite H; split; reflexivity.
Qed.

Lemma emitPending_cases (types typeDelimiter : value)
    (next : value -> completion value) (action : object) (d : destructured) :
  (exists e, emitPending types typeDelimiter next action d = ([], Abrupt e))
  \/ emitPending types typeDelimiter next action d
     = (pending_trace types typeDelimiter action d,
        next (VObj (pending_action types typeDelimiter action d))).
Proof.
  unfold emitPending, pending_trace, pending_action.
  destruct types; try (left; eexists; reflexivity); right;
    simpl get_member; unfold lift, bind at 1;
    rewrite createAction_literal; unfold bind at 1; now rewrite forward_eq.
Qed.

Lemma onFulfilled_cases (types typeDelimiter : value) (api : MiddlewareAPI)
    (action : object) (v : value) :
  fst (onFulfilled types typeDelimiter api action v) = []
  \/ fst (onFulfilled types typeDelimiter api action v)
     = [ELog [VStr "payload"; v];
        EDispatch (VObj (fulfilled_action types typeDelimiter action v))].
Proof.
  unfold onFulfilled, fulfilled_action.
  destruct types; try (left; reflexivity); right;
    simpl get_member; unfold lift, bind at 1;
    rewrite createAction_literal; unfold bind at 1;
    unfold redispatch, tell, lift, bind, ret;
    destruct (dispatch api _); reflexivity.
Qed.

Lemma onRejected_cases (types typeDelimiter : value) (api : MiddlewareAPI)
    (action : object) (e : value) :
  fst (onRejected types typeDelimiter api action e) = []
  \/ fst (onRejected types typeDelimiter api action e)
     = [ELog [VStr "payload"; e];
        EDispatch (VObj (rejected_action types typeDelimiter action e))].
Proof.
  unfold onRejected, rejected_action.
  destruct types; try (left; reflexivity); right;
    simpl get_member; unfold lift, bind at 1;
    rewrite createAction_literal; unfold bind at 1;
    unfold redispatch, tell, lift, bind, throw;
    destruct (dispatch api _); reflexivity.
Qed.

(** X8: the two ways out are kept apart, step by step.  Building and
    sending the pending action calls [next] at most once and never
    [dispatch]; a run of either settlement handler calls [dispatch] at most
    once and never [next].  This holds for any [types] and delimiter, also
    when reading a token fails. *)
Theorem steps_keep_to_their_channel (types typeDelimiter : value)
    (api : MiddlewareAPI) (next : value -> completion value)
    (action : object) (d : destructured) (v e : value) :
  (dispatched (fst (emitPending types typeDelimiter next action d)) = []
   /\ (length (forwarded (fst (emitPending types typeDelimiter next action d)))
       <= 1)%nat)
  /\ (forwarded (fst (onFulfilled types typeDelimiter api action v)) = []
      /\ (length (dispatched
                    (fst (onFulfilled types typeDelimiter api action v)))
          <= 1)%nat)
  /\ (forwarded (fst (onRejected types typeDelimiter api action e)) = []
      /\ (length (dispatched
                    (fst (onRejected types typeDelimiter api action e)))
          <= 1)%nat).
Proof.
  split; [|split].
  - destruct (emitPending_cases types typeDelimiter next action d)
      as [[e0 H]|H]; rewrite H; simpl; auto.
  - destruct (onFulfilled_cases types typeDelimiter api action v) as [H|H];
      rewrite H; simpl; auto.
  - destruct (onRejected_cases types typeDelimiter api action e) as [H|H];
      rewrite H; simpl; auto.
Qed.

(** ** After the guard: what a settlement brings *)

Section Settlement.

Variables (types typeDelimiter : value) (tys : object).
Variables (api : MiddlewareAPI) (next : value -> completion value).
Variables (action : object) (evs : list event) (d : destructured).

Hypothesis types_object : types = VObj tys.
Hypothesis found : destructureAction action = (evs, Normal d).
Hypothesis not_detected : isPromise (promise d) = false.
Hypothesis is_truthy : truthy (promise d) = true.


Lemma settlement_unfold :
  promiseMiddleware types typeDelimiter api next action
  = and_then (evs ++ pending_trace types typeDelimiter action d,
              next (VObj (pending_action types typeDelimiter action d)))
      (fun _ => invoke_then (promise d)
                  (onFulfilled types typeDelimiter api action)
                  (onRejected types typeDelimiter api action)).
Proof.
  exact (@lifecycle_unfold types typeDelimiter tys api next action evs d
           types_object found not_detected is_truthy).
Qed.



(** X11: while the thenable has not settled, the pending action is all
    there is: the returned promise is pending and nothing is dispatched. *)
Theorem thenable_pending_only_pending
    (src : string) (props : object) (r0 : value) :
  member (promise d) "then" = VFun src (ThenOf Pends) props ->
  next (VObj (pending_action types typeDelimiter action d)) = Normal r0 ->
  promiseMiddleware types typeDelimiter api next action
  = sync (evs ++ pending_trace types typeDelimiter action d,
          Normal (VPromise Pends)).
Proof.
  intros Hthen Hn. rewrite settlement_unfold, Hn, and_then_normal.
  unfold invoke_then. rewrite Hthen. simpl. now rewrite app_nil_r.
Qed.


(** X13: a truthy value without a callable [then] (a number, a string, a
    plain object returned by the payload function) gets the pending action
    sent to [next] and then a type error from [promise.then]: the pending
    action is never followed by a fulfilled or a rejected one. *)
Theorem non_thenable_pending_then_type_error (r0 : value) :
  is_function (member (promise d) "then") = false ->
  next (VObj (pending_action types typeDelimiter action d)) = Normal r0 ->
  promiseMiddleware types typeDelimiter api next action
  = sync (evs ++ pending_trace types typeDelimiter action d,
          Abrupt (TypeError "is not a function")).
Proof.
  intros Hthen Hn. rewrite settlement_unfold, Hn, and_then_normal.
  unfold invoke_then.
  destruct (member (promise d) "then"); try discriminate Hthen;
    simpl; now rewrite app_nil_r.
Qed.

(** X14: when [next] throws on the pending action the exception comes out
    of the dispatch and [then] is never called: nothing is left for
    later, even if the thenable settles. *)
Theorem next_throwing_on_pending_stops (e : value) :
  next (VObj (pending_action types typeDelimiter action d)) = Abrupt e ->
  promiseMiddleware types typeDelimiter api next action
  = sync (evs ++ pending_trace types typeDelimiter action d, Abrupt e).
Proof. intro Hn. now rewrite settlement_unfold, Hn, and_then_abrupt. Qed.

End Settlement.



Lemma thenable_pending_only_pending_witness :
  destructureAction (fetch (deferred Pends))
  = ([EInvoke (deferred Pends)], Normal (found_deferred Pends))
  /\ createPromise None echo_api echo (fetch (deferred Pends))
     = sync ([EInvoke (deferred Pends); ELog [VStr "payload"; VNull];
              ENext (VObj [("type", VStr "FETCH_PENDING")])],
             Normal (VPromise Pends)).
Proof.
  split; [reflexivity|].
  exact (@thenable_pending_only_pending DefaultTypes (VStr "_") default_tokens
           echo_api echo (fetch (deferred Pends))
           [EInvoke (deferred Pends)] (found_deferred Pends)
           eq_refl eq_refl eq_refl eq_refl
           "function then() { [native code] }" []
           (VObj [("type", VStr "FETCH_PENDING")]) eq_refl eq_refl).
Defined.


Lemma non_thenable_pending_then_type_error_witness :
  destructureAction (fetch returns_number)
  = ([EInvoke returns_number], Normal {| promise := VNum 3; data := VNull |})
  /\ createPromise None echo_api echo (fetch returns_number)
     = sync ([EInvoke returns_number; ELog [VStr "payload"; VNull];
              ENext (VObj [("type", VStr "FETCH_PENDING")])],
             Abrupt (TypeError "is not a function")).
Proof.
  split; [reflexivity|].
  exact (@non_thenable_pending_then_type_error DefaultTypes (VStr "_")
           default_tokens echo_api echo (fetch returns_number)
           [EInvoke returns_number] {| promise := VNum 3; data := VNull |}
           eq_refl eq_refl eq_refl eq_refl
           (VObj [("type", VStr "FETCH_PENDING")]) eq_refl eq_refl).
Defined.

Lemma next_throwing_on_pending_stops_witness :
  failing_next (VObj [("type", VStr "FETCH_PENDING")]) = Abrupt (Error "next")
  /\ createPromise None echo_api failing_next
       (fetch (deferred (Fulfils (VNum 42))))
     = sync ([EInvoke (deferred (Fulfils (VNum 42)));
              ELog [VStr "payload"; VNull];
              ENext (VObj [("type", VStr "FETCH_PENDING")])],
             Abrupt (Error "next")).
Proof.
  split; [reflexivity|].
  exact (@next_throwing_on_pending_stops DefaultTypes (VStr "_")
           default_tokens echo_api failing_next
           (fetch (deferred (Fulfils (VNum 42))))
           [EInvoke (deferred (Fulfils (VNum 42)))]
           (found_deferred (Fulfils (VNum 42)))
           eq_refl eq_refl eq_refl eq_refl (Error "next") eq_refl).
Defined.

(** ** Configuration, once more *)

(** X15: with a configuration that has no [types], an action that gets
    past the guard fails on [types.pending]: the dispatch throws a type
    error before anything is sent to [next]. *)
Theorem config_without_types_throws (cfg : object) (api : MiddlewareAPI)
    (next : value -> completion value) (action : object)
    (evs : list event) (d : destructured) :
  nullish (get "types" cfg) = true ->
  destructureAction action = (evs, Normal d) ->
  isPromise (promise d) = false ->
  truthy (promise d) = true ->
  createPromise (Some cfg) api next action
  = sync (evs, Abrupt (TypeError "Cannot read property pending"))
  /\ forwarded evs = [].
Proof.
  intros Hty Hd Hp Ht. split.
  - unfold createPromise, promiseMiddleware.
    rewrite Hd, and_then_normal, Hp, Ht. simpl negb. cbv iota.
    apply nullish_spec in Hty. unfold emitPending.
    destruct Hty as [-> | ->]; simpl; now rewrite app_nil_r.
  - pose proof (destructureAction_silent action) as H.
    rewrite Hd in H. apply H.
Qed.

Lemma config_without_types_throws_witness :
  nullish (get "types" [("typeDelimiter", VStr "/")]) = true
  /\ createPromise (Some [("typeDelimiter", VStr "/")]) echo_api echo
       (fetch (deferred (Fulfils (VNum 42))))
     = sync ([EInvoke (deferred (Fulfils (VNum 42)))],
             Abrupt (TypeError "Cannot read property pending")).
Proof.
  split; [reflexivity|].
  exact (proj1
    (@config_without_types_throws [("typeDelimiter", VStr "/")] echo_api echo
       (fetch (deferred (Fulfils (VNum 42))))
       [EInvoke (deferred (Fulfils (VNum 42)))]
       (found_deferred (Fulfils (VNum 42)))
       eq_refl eq_refl eq_refl eq_refl)).
Defined.

(** X16: the three derived types are the type of the action, the
    configured delimiter and the configured token of the step, for any
    tokens and any delimiter (strings): the pending one on the action sent
    to [next], the fulfilled and the rejected one on the action sent to
    [dispatch]. *)
Theorem derived_types_follow_config (tys : object) (del p f r ty : string)
    (api : MiddlewareAPI) (next : value -> completion value)
    (action : object) (d : destructured) (v e : value) :
  get "pending" tys = VStr p ->
  get "fulfilled" tys = VStr f ->
  get "rejected" tys = VStr r ->
  get "type" action = VStr ty ->
  (exists a,
     forwarded (fst (emitPending (VObj tys) (VStr del) next action d))
     = [VObj a]
     /\ lookup "type" a = Some (VStr (ty ++ del ++ p)%string))
  /\ (exists a,
        dispatched (fst (onFulfilled (VObj tys) (VStr del) api action v))
        = [VObj a]
        /\ lookup "type" a = Some (VStr (ty ++ del ++ f)%string))
  /\ (exists a,
        dispatched (fst (onRejected (VObj tys) (VStr del) api action e))
        = [VObj a]
        /\ lookup "type" a = Some (VStr (ty ++ del ++ r)%string)).
Proof.
  intros Hp Hf Hr Hty. split; [|split].
  - rewrite (emitPending_eq (VStr del) next action d (eq_refl (VObj tys))).
    eexists. split; [reflexivity|].
    unfold pending_action. rewrite lookup_built_type. simpl member.
    now rewrite Hp, Hty.
  - rewrite (onFulfilled_eq (VStr del) api action (eq_refl (VObj tys)) v).
    eexists. split; [reflexivity|].
    unfold fulfilled_action. rewrite lookup_built_type. simpl member.
    now rewrite Hf, Hty.
  - rewrite (onRejected_eq (VStr del) api action (eq_refl (VObj tys)) e).
    eexists. split; [reflexivity|].
    unfold rejected_action. rewrite lookup_built_type. simpl member.
    now rewrite Hr, Hty.
Qed.

Lemma derived_types_follow_config_witness :
  get "pending" custom_types = VStr "START"
  /\ exists a,
       dispatched (fst (onRejected (VObj custom_types) (VStr "/") echo_api
                          (fetch VUndef) (Error "x")))
       = [VObj a]
       /\ lookup "type" a = Some (VStr "FETCH/FAIL").
Proof.
  split; [reflexivity|].
  exact (proj2 (proj2
    (@derived_types_follow_config custom_types "/" "START" "OK" "FAIL" "FETCH"
       echo_api echo (fetch VUndef) (found_deferred Pends) VUndef (Error "x")
       eq_refl eq_refl eq_refl eq_refl))).
Defined.

(** ** What the derived actions carry *)

(** X17: a [meta] of the action that is not [undefined] is on all three
    derived actions, as it is. *)
Theorem meta_on_all_derived_actions (tys : object) (typeDelimiter : value)
    (api : MiddlewareAPI) (next : value -> completion value)
    (action : object) (d : destructured) (v e : value) :
  get "meta" action <> VUndef ->
  (exists a,
     forwarded (fst (emitPending (VObj tys) typeDelimiter next action d))
     = [VObj a]
     /\ lookup "meta" a = Some (get "meta" action))
  /\ (exists a,
        dispatched (fst (onFulfilled (VObj tys) typeDelimiter api action v))
        = [VObj a]
        /\ lookup "meta" a = Some (get "meta" action))
  /\ (exists a,
        dispatched (fst (onRejected (VObj tys) typeDelimiter api action e))
        = [VObj a]
        /\ lookup "meta" a = Some (get "meta" action)).
Proof.
  intro Hm.
  assert (Hmeta : forall ty tok dl pl er,
            lookup "meta" (built ty tok dl pl (get "meta" action) er)
            = Some (get "meta" action)).
  { intros. rewrite lookup_built_meta.
    destruct (get "meta" action); try reflexivity. now elim Hm. }
  split; [|split].
  - rewrite (emitPending_eq typeDelimiter next action d (eq_refl (VObj tys))).
    eexists. split; [reflexivity|]. apply Hmeta.
  - rewrite (onFulfilled_eq typeDelimiter api action (eq_refl (VObj tys)) v).
    eexists. split; [reflexivity|]. apply Hmeta.
  - rewrite (onRejected_eq typeDelimiter api action (eq_refl (VObj tys)) e).
    eexists. split; [reflexivity|]. apply Hmeta.
Qed.

Lemma meta_on_all_derived_actions_witness :
  get "meta" [("type", VStr "FETCH"); ("meta", VNull)] <> VUndef
  /\ exists a,
       dispatched (fst (onFulfilled DefaultTypes (VStr "_") echo_api
                          [("type", VStr "FETCH"); ("meta", VNull)] (VNum 1)))
       = [VObj a]
       /\ lookup "meta" a = Some VNull.
Proof.
  split; [discriminate|].
  refine (proj1 (proj2
    (@meta_on_all_derived_actions default_tokens (VStr "_") echo_api echo
       [("type", VStr "FETCH"); ("meta", VNull)] (found_deferred Pends)
       (VNum 1) VUndef _))).
  discriminate.
Defined.

(** X18: the pending action carries the data found beside the promise as
    its payload, or no payload when there is none ([null], [undefined]),
    and never an error field; it is built, logged and sent to [next] in
    that order. *)
Theorem pending_action_carries_data (tys : object) (typeDelimiter : value)
    (next : value -> completion value) (action : object) (d : destructured) :
  exists a,
    fst (emitPending (VObj tys) typeDelimiter next action d)
    = [ELog [VStr "payload"; data d]; ENext (VObj a)]
    /\ snd (emitPending (VObj tys) typeDelimiter next action d)
       = next (VObj a)
    /\ lookup "payload" a = (if nullish (data d) then None else Some (data d))
    /\ lookup "error" a = None.
Proof.
  rewrite (emitPending_eq typeDelimiter next action d (eq_refl (VObj tys))).
  eexists. split; [reflexivity|]. split; [reflexivity|].
  unfold pending_action.
  now rewrite lookup_built_payload, lookup_built_error.
Qed.

(** ** The builder, once more *)

Lemma lookup_in_keys (k : string) (o : object) :
  has_field k o = true -> In k (map fst o).
Proof.
  unfold has_field.
  induction o as [|[k' v] o IH]; simpl; [discriminate|].
  destruct (String.eqb k k') eqn:E.
  - intros _. left. apply String.eqb_eq in E. now subst.
  - intro H. right. now apply IH.
Qed.

Lemma built_keys ty asyncType delimiter payload meta error :
  map fst (built ty asyncType delimiter payload meta error)
  = "type"
      :: (if nullish payload then [] else ["payload"])
      ++ (match meta with VUndef => [] | _ => ["meta"] end)
      ++ (if truthy error then ["error"] else []).
Proof.
  unfold built. destruct (nullish payload), meta, (truthy error); reflexivity.
Qed.

(** X19: for a type, a token and a delimiter that are strings, and
    whatever else the argument holds, the built action has [type] first and
    after it at most [payload], [meta] and [error], in that order and each
    once; no other property of the argument is copied.  Building writes one
    line to the console. *)
Theorem createAction_keeps_four_fields
    (args : object) (ty delimiter asyncType : string) :
  get "type" args = VStr ty ->
  get "asyncType" args = VStr asyncType ->
  get "asyncTypeDelimiter" args = VStr delimiter ->
  exists a,
    createAction args = ([ELog [VStr "payload"; get "payload" args]], Normal a)
    /\ hd_error a = Some ("type", VStr (ty ++ delimiter ++ asyncType)%string)
    /\ NoDup (map fst a)
    /\ forall k, has_field k a = true ->
         In k ["type"; "payload"; "meta"; "error"].
Proof.
  intros Hty Htok Hdel.
  rewrite createAction_built. eexists. split; [reflexivity|].
  split; [unfold built; now rewrite Hty, Htok, Hdel|].
  assert (K : forall P : list string -> Prop,
            (forall (b1 b2 b3 : bool),
               P ("type" :: (if b1 then [] else ["payload"])
                    ++ (if b2 then [] else ["meta"])
                    ++ (if b3 then ["error"] else []))) ->
            P (map fst (built (get "type" args) (get "asyncType" args)
                          (get "asyncTypeDelimiter" args) (get "payload" args)
                          (get "meta" args) (get "error" args)))).
  { intros P HP. rewrite built_keys.
    destruct (get "meta" args);
      first [ apply (HP _ true _) | apply (HP _ false _) ]. }
  split.
  - apply K. intros [] [] []; simpl;
      repeat (constructor; [simpl; intuition discriminate|]); constructor.
  - intros k Hk. apply lookup_in_keys in Hk. revert Hk. apply K.
    intros [] [] []; simpl; intuition.
Qed.

Lemma createAction_keeps_four_fields_witness :
  get "type" noisy_args = VStr "FETCH"
  /\ get "asyncType" noisy_args = VStr "PENDING"
  /\ get "asyncTypeDelimiter" noisy_args = VStr "_"
  /\ has_field "extra" noisy_args = true
  /\ exists a,
       createAction noisy_args = ([ELog [VStr "payload"; VNum 0]], Normal a)
       /\ forall k, has_field k a = true ->
            In k ["type"; "payload"; "meta"; "error"].
Proof.
  repeat (split; [reflexivity|]).
  destruct (@createAction_keeps_four_fields noisy_args "FETCH" "_" "PENDING"
              eq_refl eq_refl eq_refl) as (a & H1 & _ & _ & H4).
  exists a. split; [exact H1|exact H4].
Defined.

Lemma string_append_empty (s : string) : (s ++ "")%string = s.
Proof. induction s as [|c s IH]; simpl; [reflexivity|now rewrite IH]. Qed.

(** X20: a token that is missing ([undefined] or [null]) is joined as the
    empty string: the derived type is the type of the action followed by
    the delimiter. *)
Theorem createAction_missing_token (args : object) (ty delimiter : string) :
  get "type" args = VStr ty ->
  nullish (get "asyncType" args) = true ->
  get "asyncTypeDelimiter" args = VStr delimiter ->
  exists a,
    snd (createAction args) = Normal a
    /\ lookup "type" a = Some (VStr (ty ++ delimiter)%string).
Proof.
  intros Hty Htok Hdel. rewrite createAction_built. eexists.
  split; [reflexivity|]. rewrite lookup_built_type, Hty, Hdel.
  apply nullish_spec in Htok.
  destruct Htok as [-> | ->]; unfold array_join; simpl;
    now rewrite string_append_empty.
Qed.

Lemma createAction_missing_token_witness :
  nullish (get "asyncType" [("type", VStr "FETCH");
                            ("asyncTypeDelimiter", VStr "_")]) = true
  /\ exists a,
       snd (createAction [("type", VStr "FETCH");
                          ("asyncTypeDelimiter", VStr "_")]) = Normal a
       /\ lookup "type" a = Some (VStr "FETCH_").
Proof.
  split; [reflexivity|].
  exact (@createAction_missing_token
           [("type", VStr "FETCH"); ("asyncTypeDelimiter", VStr "_")]
           "FETCH" "_" eq_refl eq_refl eq_refl).
Defined.

(** ** The default export, once more *)

(** X21: the notice is written exactly when [dispatch] is not a function
    and [process.env.NODE_ENV] is the string [development]; in every other
    case the default export writes nothing. *)
Theorem notice_logged_iff_development (process : value) (arg : object) :
  (fst (middleware process arg) = [ELog [VStr upgrade_notice]]
   <-> typeof (get "dispatch" arg) <> TFunction
       /\ truthy process = true
       /\ truthy (member process "env") = true
       /\ member (member process "env") "NODE_ENV" = VStr "development")
  /\ (fst (middleware process arg) = []
      \/ fst (middleware process arg) = [ELog [VStr upgrade_notice]]).
Proof.
  unfold middleware, is_development.
  destruct (is_function (get "dispatch" arg)) eqn:Ef.
  { apply is_function_typeof in Ef. split; [|now left].
    split; [discriminate|]. intros [H _]. contradiction. }
  assert (Hnf : typeof (get "dispatch" arg) <> TFunction).
  { intro H. apply is_function_typeof in H. congruence. }
  destruct (truthy process); [|simpl; split; [|now left];
    split; [discriminate|intros (_ & H & _); discriminate H]].
  destruct (truthy (member process "env")); [|simpl; split; [|now left];
    split; [discriminate|intros (_ & _ & H & _); discriminate H]].
  destruct (member (member process "env") "NODE_ENV")
    as [| |b|n|s|pp|src body pp|s];
    simpl; try (split; [|now left];
                split; [discriminate|intros (_ & _ & _ & H); discriminate H]).
  destruct (String.eqb s "development") eqn:E; simpl.
  - apply String.eqb_eq in E. subst s. split; [|now right].
    split; [intros _; repeat split; assumption|reflexivity].
  - split; [|now left]. split; [discriminate|].
    intros (_ & _ & _ & H). injection H as ->.
    rewrite String.eqb_refl in E. discriminate E.
Qed.

(** ** Promises, in general *)

(** X22: whatever the detector accepts as a payload (a native promise, an
    object with a callable [then]) sends the action to [next] with its
    fields unchanged, under any configuration; no derived action is built,
    nothing is registered on the promise and the call returns what [next]
    returns. *)
Theorem detected_payload_is_passed_through (config : option object)
    (api : MiddlewareAPI) (next : value -> completion value)
    (action : object) :
  isPromise (get "payload" action) = true ->
  createPromise config api next action
  = sync ([ENext (VObj action)], next (VObj action)).
Proof. intro H. unfold createPromise. now apply promise_payload_passthrough. Qed.

Lemma detected_payload_is_passed_through_witness :
  isPromise (get "payload" (fetch (VObj [("then", builtin_then Pends)]))) = true
  /\ later (createPromise (Some custom_config) echo_api echo
              (fetch (VObj [("then", builtin_then Pends)]))) = [].
Proof.
  split; [reflexivity|].
  rewrite (@detected_payload_is_passed_through (Some custom_config) echo_api
             echo (fetch (VObj [("then", builtin_then Pends)])) eq_refl).
  reflexivity.
Defined.

(** X23: with a promise under [payload.promise] the action goes to [next]
    with that promise as its payload; the data beside it is read and
    dropped, nothing is called and no derived action is built. *)
Theorem promise_field_replaces_payload (config : option object)
    (api : MiddlewareAPI) (next : value -> completion value)
    (action pp : object) :
  get "payload" action = VObj pp ->
  isPromise (VObj pp) = false ->
  isPromise (get "promise" pp) = true ->
  exists a,
    createPromise config api next action
    = sync ([ENext (VObj a)], next (VObj a))
    /\ lookup "payload" a = Some (get "promise" pp)
    /\ (forall k, String.eqb k "payload" = false -> lookup k a = lookup k action)
    /\ map fst a = map fst action.
Proof.
  intros Hpay Hnp Hp. unfold createPromise.
  pose proof (promise_field_is_used action Hpay Hnp Hp) as Hd.
  exists (set_prop "payload" (get "promise" pp) action).
  split; [|split; [|split]].
  - apply (middleware_promise_found _ _ _ _ _ Hd). exact Hp.
  - apply lookup_set_prop_same.
  - intros k Hk. now apply lookup_set_prop_other.
  - apply set_prop_keys with (v0 := VObj pp).
    unfold get in Hpay. destruct (lookup "payload" action) as [x|];
      [now subst x|discriminate Hpay].
Qed.

Lemma promise_field_replaces_payload_witness :
  isPromise (get "promise" [("promise", resolved (VNum 1));
                            ("data", VStr "optimistic")]) = true
  /\ exists a,
       createPromise None echo_api echo
         (fetch (VObj [("promise", resolved (VNum 1));
                       ("data", VStr "optimistic")]))
       = sync ([ENext (VObj a)], echo (VObj a))
       /\ lookup "payload" a = Some (resolved (VNum 1)).
Proof.
  split; [reflexivity|].
  destruct (@promise_field_replaces_payload None echo_api echo
              (fetch (VObj [("promise", resolved (VNum 1));
                            ("data", VStr "optimistic")]))
              [("promise", resolved (VNum 1)); ("data", VStr "optimistic")]
              eq_refl eq_refl eq_refl) as (a & H1 & H2 & _).
  exists a. split; [exact H1|exact H2].
Defined.
